(** * Token relay service: [examples/realtime-next/server/token_server.py]

    A shallow embedding of the FastAPI endpoint [POST /api/token] and of its
    handler [get_token], followed by the properties of the handler.

    The handler talks to two things outside itself: the process environment
    ([os.getenv]) and the upstream provider ([httpx.AsyncClient.post]).  Both
    live in a [World] that the handler is threaded through; every outbound
    call is appended to the world's [calls] log, so "how many calls were
    made" is a statement about that log. *)

From Stdlib Require Import ZArith Ascii String List Lia.
From Stdlib Require PrimFloat.
From stdpp Require Import base option strings gmap.

Local Open Scope Z_scope.

Set Warnings "-register-all".

(** ** Data model *)

(** JSON values as Python's [json] module decodes them ([None], [bool],
    [int], [float], [str], [list], [dict]).  A [float] is a binary64 number:
    a literal with a fraction or an exponent decodes to one, [1e400] and
    [Infinity] to an infinity, [NaN] to a NaN.  A [str] is held as the bytes of
    its UTF-8 encoding, with an unpaired surrogate (which a [str] may hold and
    the decoder accepts as an escape) as the three bytes [0xED 0xA0..0xBF 0x80..0xBF].
    A [dict] keeps its insertion order and has no repeated key. *)
Inductive Json : Type :=
| JNull
| JBool (b : bool)
| JNum (n : Z)
| JFloat (f : PrimFloat.float)
| JStr (s : string)
| JList (xs : list Json)
| JDict (kvs : list (string * Json)).

(** Whether a [str] holds a surrogate, the one thing of a [str] that
    [s.encode("utf-8")] refuses. *)
Fixpoint has_surrogate (s : string) : bool :=
  match s with
  | String a (String b _ as rest) =>
      ((N_of_ascii a =? 237)%N && (160 <=? N_of_ascii b)%N
       && (N_of_ascii b <=? 191)%N)
      || has_surrogate rest
  | _ => false
  end.

(** Whether every number of a value is finite, as [json.dumps] with
    [allow_nan=False] demands. *)
Fixpoint finite (j : Json) : bool :=
  match j with
  | JFloat f => PrimFloat.is_finite f
  | JList xs => forallb finite xs
  | JDict kvs => forallb (λ kv, finite kv.2) kvs
  | _ => true
  end.

(** Whether every string and key of a value can be encoded as UTF-8. *)
Fixpoint encodable (j : Json) : bool :=
  match j with
  | JStr s => negb (has_surrogate s)
  | JList xs => forallb encodable xs
  | JDict kvs => forallb (λ kv, negb (has_surrogate kv.1) && encodable kv.2) kvs
  | _ => true
  end.

(** [d.get(k)] on a Python dict: the value stored under [k], if any. *)
Fixpoint dict_get (k : string) (kvs : list (string * Json)) : option Json :=
  match kvs with
  | [] => None
  | (k', v) :: rest => if decide (k' = k) then Some v else dict_get k rest
  end.

(** [class TokenRequest(BaseModel): model: str = "gpt-realtime"] *)
Record TokenRequest : Type := { model : string }.

Definition TokenRequest_default : TokenRequest := {| model := "gpt-realtime" |}.

(** The keyword arguments of one [client.post(url, headers=, json=, timeout=)]. *)
Record Post : Type := {
  url : string;
  headers : list (string * string);
  json : Json;
  timeout : Z
}.

(** What the handler reads of an [httpx.Response]: [resp.status_code],
    [resp.text] and [resp.json()], the last being [None] when the call raises
    (the body is not JSON). *)
Record Response : Type := {
  status_code : Z;
  text : string;
  resp_json : option Json
}.

(** Failures of the transport, raised by [client.post] itself.  A
    [timeout=10] bounds each of the four phases, hence four timeouts. *)
Inductive HttpxError : Type :=
| ConnectError
| ConnectTimeout
| ReadTimeout
| WriteTimeout
| PoolTimeout.

(** The exceptions that can leave [get_token]. *)
Inductive Exn : Type :=
| HTTPException (status : Z) (detail : Json)
| TransportError (e : HttpxError)
| JSONDecodeError
| AttributeError
| ValueError
| UnicodeEncodeError.

(** A [JSONResponse] once built: its content and its status code. *)
Record JSONResponse_t : Type := { content : Json; response_status : Z }.

(** What stops [JSONResponse.render], if anything:
    [json.dumps(content, ensure_ascii=False, allow_nan=False, ...)] raises
    [ValueError] on a number that is not finite, and [.encode("utf-8")] of its
    result raises [UnicodeEncodeError] on a surrogate. *)
Definition render_error (c : Json) : option Exn :=
  if negb (finite c) then Some ValueError
  else if negb (encodable c) then Some UnicodeEncodeError
  else None.

(** ** The world of a request *)

(** [environ] is [os.environ]; [upstream n p] is what the provider answers
    to the [n]-th outbound call of the process when that call is [p] (a
    response, or a transport failure); [calls] logs the outbound calls made
    so far, oldest first. *)
Record World : Type := {
  environ : gmap string string;
  upstream : nat → Post → HttpxError + Response;
  calls : list Post
}.

(** Computations that read and extend the world and may raise. *)
Definition M (A : Type) : Type := World → (Exn + A) * World.

#[export] Instance M_ret : MRet M := λ A a w, (inr a, w).

#[export] Instance M_bind : MBind M := λ A B f m w,
  match m w with
  | (inl e, w') => (inl e, w')
  | (inr a, w') => f a w'
  end.

#[export] Instance M_throw : MThrow Exn M := λ A e w, (inl e, w).

(** [os.getenv(name)] *)
Definition getenv (name : string) : M (option string) :=
  λ w, (inr (environ w !! name), w).

(** The world after one more outbound call. *)
Definition logged (p : Post) (w : World) : World :=
  {| environ := environ w; upstream := upstream w; calls := calls w ++ [p] |}.

(** [async with httpx.AsyncClient() as client: await client.post(...)]:
    a fresh client per request, one call on it, logged whatever its fate. *)
Definition client_post (p : Post) : M Response :=
  λ w,
    match upstream w (length (calls w)) p with
    | inl e => (inl (TransportError e), logged p w)
    | inr resp => (inr resp, logged p w)
    end.

(** [resp.json()] outside a [try]: the decoded body, or the decoder's error. *)
Definition Response_json (resp : Response) : M Json :=
  match resp_json resp with
  | Some j => mret j
  | None => mthrow JSONDecodeError
  end.

(** [data.get(key)]: only a dict has [get]; a missing key gives [None]. *)
Definition get (data : Json) (key : string) : M Json :=
  match data with
  | JDict kvs => mret (default JNull (dict_get key kvs))
  | _ => mthrow AttributeError
  end.

(** [JSONResponse(content)]: the body is rendered when the response is
    built, so a content that cannot be rendered raises there; the status code
    defaults to 200. *)
Definition JSONResponse (c : Json) : M JSONResponse_t :=
  match render_error c with
  | Some e => mthrow e
  | None => mret {| content := c; response_status := 200 |}
  end.

(** Python's [not s] for [s : Optional[str]]. *)
Definition py_not (s : option string) : bool :=
  match s with
  | None => true
  | Some s => bool_decide (s = "")
  end.

(** ** The handler *)

Definition upstream_url : string :=
  "https://api.openai.com/v1/realtime/client_secrets".

Definition mcp_tool (label server : string) : Json :=
  JDict [("type", JStr "mcp");
         ("server_label", JStr label);
         ("server_url", JStr server);
         ("require_approval", JStr "always")].

Definition tools : list Json :=
  [mcp_tool "deepwiki" "https://mcp.deepwiki.com/sse";
   mcp_tool "dnd" "https://dmcp-server.deno.dev/sse"].

Definition payload (req : TokenRequest) : Json :=
  JDict [("session",
          JDict [("type", JStr "realtime");
                 ("model", JStr (model req));
                 ("tools", JList tools)])].

Definition post_args (api_key : string) (req : TokenRequest) : Post :=
  {| url := upstream_url;
     headers := [("Authorization", "Bearer " +:+ api_key);
                 ("Content-Type", "application/json")];
     json := payload req;
     timeout := 10 |}.

Definition missing_key_detail : Json :=
  JStr "Missing OPENAI_API_KEY environment variable".

Definition get_token (req : TokenRequest) : M JSONResponse_t :=
  api_key ← getenv "OPENAI_API_KEY";
  if py_not api_key then
    mthrow (HTTPException 500 missing_key_detail)
  else
    (* past the guard [api_key] is a non-empty string *)
    resp ← client_post (post_args (default "" api_key) req);
    if bool_decide (400 ≤ status_code resp)%Z then
      let detail :=
        match resp_json resp with
        | Some j => j
        | None => JStr (text resp)
        end in
      mthrow (HTTPException 502 (JDict [("upstream_error", detail)]))
    else
      data ← Response_json resp;
      value ← get data "value";
      JSONResponse (JDict [("token", value)]).

(** ** The route, as FastAPI serves it *)

(** A validation error of the request body: where it is, and for the two
    type errors the value that was refused. *)
Inductive ValidationError : Type :=
| Missing (loc : list string)
| ModelAttributesType (loc : list string) (input : Json)
| StringType (loc : list string) (input : Json).

(** The [input] entry of a validation error: the value that was refused. *)
Definition error_input (err : ValidationError) : Json :=
  match err with
  | Missing _ => JNull
  | ModelAttributesType _ input | StringType _ input => input
  end.

(** A response body on the wire: JSON, plain text, or the list of
    validation errors FastAPI sends with a 422. *)
Inductive Body : Type :=
| JsonBody (j : Json)
| TextBody (s : string)
| ValidationBody (errs : list ValidationError).

Record HttpResponse : Type := { status : Z; body : Body }.

(** Binding the request body to the parameter [req: TokenRequest].  The
    parameter has no default, so the body is required (an absent body and a
    JSON [null] both count as none); it must be an object;
    [model] must be a string when present (pydantic 2 does not turn other
    values into strings) and takes the class default when absent; other keys
    are ignored. *)
Definition validate (request_body : option Json) : ValidationError + TokenRequest :=
  match request_body with
  | None | Some JNull => inl (Missing ["body"])
  | Some (JDict kvs) =>
      match dict_get "model" kvs with
      | None => inr TokenRequest_default
      | Some (JStr s) => inr {| model := s |}
      | Some j => inl (StringType ["body"; "model"] j)
      end
  | Some j => inl (ModelAttributesType ["body"] j)
  end.

(** The server's answer to an exception nobody handles. *)
Definition internal_server_error : HttpResponse :=
  {| status := 500; body := TextBody "Internal Server Error" |}.

(** What the client sees of the handler's outcome: a returned response as
    it is; an [HTTPException] as [JSONResponse({"detail": detail})] with its
    status, unless that response cannot be rendered, which is one more
    unhandled exception; any other exception as the server's plain 500. *)
Definition render (outcome : Exn + JSONResponse_t) : HttpResponse :=
  match outcome with
  | inr r => {| status := response_status r; body := JsonBody (content r) |}
  | inl (HTTPException st detail) =>
      match render_error (JDict [("detail", detail)]) with
      | None => {| status := st; body := JsonBody (JDict [("detail", detail)]) |}
      | Some _ => internal_server_error
      end
  | inl _ => internal_server_error
  end.

(** What the client sees of a rejected body:
    [JSONResponse(status_code=422, content={"detail": errors})], where each
    error holds its type, location and message and the refused input.  Only
    the input can keep the response from being rendered, and a response that
    cannot be rendered is an unhandled exception. *)
Definition unprocessable (err : ValidationError) : HttpResponse :=
  match render_error (error_input err) with
  | None => {| status := 422; body := ValidationBody [err] |}
  | Some _ => internal_server_error
  end.

(** [@app.post("/api/token")]: validate, run the handler, render. *)
Definition post_api_token (request_body : option Json) (w : World)
  : HttpResponse * World :=
  match validate request_body with
  | inl err => (unprocessable err, w)
  | inr req => let (outcome, w') := get_token req w in (render outcome, w')
  end.

(** The variable that holds the key. *)
Abbreviation API_KEY := "OPENAI_API_KEY" (only parsing).

(** ** Fixtures: a process with a mocked upstream *)

(** A world whose environment holds just the given variables and whose
    upstream gives the same answer to every call. *)
Definition mocked (env : gmap string string) (answer : HttpxError + Response)
  : World :=
  {| environ := env; upstream := λ _ _, answer; calls := [] |}.

Definition with_key (k : string) : gmap string string := {[ API_KEY := k ]}.

Definition quote : string := String "034"%char "".

(** [{"value": "secret-abc"}] with status 200 *)
Definition ok_secret : Response :=
  {| status_code := 200;
     text := "{" +:+ quote +:+ "value" +:+ quote +:+ ": "
             +:+ quote +:+ "secret-abc" +:+ quote +:+ "}";
     resp_json := Some (JDict [("value", JStr "secret-abc")]) |}.

(** [{}] with status 200 *)
Definition ok_empty : Response :=
  {| status_code := 200; text := "{}"; resp_json := Some (JDict []) |}.

(** [{"error": "bad key"}] with status 401 *)
Definition unauthorized : Response :=
  {| status_code := 401;
     text := "{" +:+ quote +:+ "error" +:+ quote +:+ ": "
             +:+ quote +:+ "bad key" +:+ quote +:+ "}";
     resp_json := Some (JDict [("error", JStr "bad key")]) |}.

(** A gateway's HTML error page with status 503: not JSON. *)
Definition bad_gateway_page : Response :=
  {| status_code := 503;
     text := "<html>Service Unavailable</html>";
     resp_json := None |}.

(** An HTML page served with status 200: not JSON. *)
Definition ok_page : Response :=
  {| status_code := 200; text := "<html>hello</html>"; resp_json := None |}.

(** [["a"]] with status 200: JSON, but not an object. *)
Definition ok_list : Response :=
  {| status_code := 200;
     text := "[" +:+ quote +:+ "a" +:+ quote +:+ "]";
     resp_json := Some (JList [JStr "a"]) |}.

Definition realtime_mini : TokenRequest := {| model := "gpt-realtime-mini" |}.

(** A world whose upstream times out on the first call of the process and
    answers [{"value": "secret-abc"}] from then on. *)
Definition flaky (env : gmap string string) : World :=
  {| environ := env;
     upstream := λ n _, match n with O => inl ReadTimeout | S _ => inr ok_secret end;
     calls := [] |}.

(** [{"value": 42}] with status 200: the value is not a string. *)
Definition ok_number : Response :=
  {| status_code := 200;
     text := "{" +:+ quote +:+ "value" +:+ quote +:+ ": 42}";
     resp_json := Some (JDict [("value", JNum 42)]) |}.

(** [{"expires_at": 1757000000, "value": "secret-abc"}] with status 201. *)
Definition created_rich : Response :=
  {| status_code := 201;
     text := "{" +:+ quote +:+ "expires_at" +:+ quote +:+ ": 1757000000, "
             +:+ quote +:+ "value" +:+ quote +:+ ": "
             +:+ quote +:+ "secret-abc" +:+ quote +:+ "}";
     resp_json := Some (JDict [("expires_at", JNum 1757000000);
                               ("value", JStr "secret-abc")]) |}.

(** The [str] made of the single surrogate U+D800. *)
Definition lone_surrogate : string :=
  String "237"%char (String "160"%char (String "128"%char "")).

(** [{"value": "\ud800"}] with status 200: the value decodes to a [str]
    holding an unpaired surrogate. *)
Definition ok_surrogate : Response :=
  {| status_code := 200;
     text := "{" +:+ quote +:+ "value" +:+ quote +:+ ": "
             +:+ quote +:+ "\ud800" +:+ quote +:+ "}";
     resp_json := Some (JDict [("value", JStr lone_surrogate)]) |}.

(** [{"value": 1e400}] with status 200: the value decodes to infinity. *)
Definition ok_infinity : Response :=
  {| status_code := 200;
     text := "{" +:+ quote +:+ "value" +:+ quote +:+ ": 1e400}";
     resp_json := Some (JDict [("value", JFloat PrimFloat.infinity)]) |}.

(** [{"error": 1e400}] with status 401. *)
Definition unauthorized_infinity : Response :=
  {| status_code := 401;
     text := "{" +:+ quote +:+ "error" +:+ quote +:+ ": 1e400}";
     resp_json := Some (JDict [("error", JFloat PrimFloat.infinity)]) |}.

(** The request body [{"model": 1e400}]: the model decodes to infinity. *)
Definition model_infinity : Json := JDict [("model", JFloat PrimFloat.infinity)].

(** ** Start-up *)

(** [load_dotenv(env_path)] with [file] the variables python-dotenv reads
    from the file: a variable the environment already has keeps its value
    ([override] is off), the others are set. *)
Definition load_dotenv (file : gmap string string) (w : World) : World :=
  {| environ := environ w ∪ file; upstream := upstream w; calls := calls w |}.

(** [if env_path.exists(): load_dotenv(env_path)], run once when the module
    is imported; [env_file] is [None] when there is no [.env]. *)
Definition startup (env_file : option (gmap string string)) (w : World) : World :=
  match env_file with
  | Some file => load_dotenv file w
  | None => w
  end.

(** ** Requests one after the other *)

(** The process handling the requests of a list in order, each in the world
    the one before left. *)
Fixpoint handle_all (reqs : list TokenRequest) (w : World)
  : list (Exn + JSONResponse_t) * World :=
  match reqs with
  | [] => ([], w)
  | req :: rest =>
      let (outcome, w1) := get_token req w in
      let (outcomes, w2) := handle_all rest w1 in
      (outcome :: outcomes, w2)
  end.

(** ** Running the handler *)

Section Run.
Variables (req : TokenRequest) (w : World).

(** Without a usable key the handler raises at once, in the same world. *)
Lemma get_token_no_key :
  py_not (environ w !! API_KEY) = true →
  get_token req w = (inl (HTTPException 500 missing_key_detail), w).
Proof.
  intros Hnot. unfold get_token, mbind, M_bind, getenv. now rewrite Hnot.
Qed.

Variable key : string.
Hypothesis Hkey : environ w !! API_KEY = Some key.
Hypothesis Hnonempty : key ≠ "".

Lemma py_not_key : py_not (environ w !! API_KEY) = false.
Proof. rewrite Hkey. simpl. now apply bool_decide_eq_false. Qed.

(** With a key, the handler is its single call followed by a case
    analysis of the answer. *)
Lemma get_token_keyed :
  get_token req w =
    (match upstream w (length (calls w)) (post_args key req) with
     | inl e => inl (TransportError e)
     | inr resp =>
         if bool_decide (400 ≤ status_code resp)%Z then
           inl (HTTPException 502
                  (JDict [("upstream_error",
                           default (JStr (text resp)) (resp_json resp))]))
         else
           match resp_json resp with
           | None => inl JSONDecodeError
           | Some (JDict kvs) =>
               let c := JDict [("token", default JNull (dict_get "value" kvs))] in
               match render_error c with
               | Some raised => inl raised
               | None => inr {| content := c; response_status := 200 |}
               end
           | Some _ => inl AttributeError
           end
     end,
     logged (post_args key req) w).
Proof.
  unfold get_token, mbind, M_bind, getenv.
  rewrite py_not_key, Hkey. cbn [default from_option id]. unfold client_post.
  destruct (upstream w (length (calls w)) (post_args key req)) as [e|resp];
    [reflexivity|].
  destruct (bool_decide (400 ≤ status_code resp)%Z).
  - unfold mthrow, M_throw. now destruct (resp_json resp).
  - unfold Response_json. destruct (resp_json resp) as [[]|]; try reflexivity.
    cbn [mret M_ret get]. unfold JSONResponse.
    now destruct (render_error _).
Qed.

(** A dict with one entry under a plain key renders if and only if the
    entry does. *)
Lemma render_error_entry (k : string) (j : Json) :
  has_surrogate k = false →
  render_error (JDict [(k, j)]) = render_error j.
Proof.
  intros Hk. unfold render_error. cbn [finite encodable forallb fst snd].
  now rewrite Hk, !andb_true_r.
Qed.

Lemma get_token_world : (get_token req w).2 = logged (post_args key req) w.
Proof. now rewrite get_token_keyed. Qed.
End Run.

(** ** Properties of the handler *)

(** C1, as stated, fails for a string the response cannot carry: a 200
    whose [value] is a string holding an unpaired surrogate makes
    [JSONResponse] raise inside the handler, and the client gets the server's
    plain 500. *)
Lemma surrogate_value_is_500 :
  (get_token realtime_mini (mocked (with_key "sk-test") (inr ok_surrogate))).1
    = inl UnicodeEncodeError
  ∧ render (get_token realtime_mini
              (mocked (with_key "sk-test") (inr ok_surrogate))).1
    = {| status := 500; body := TextBody "Internal Server Error" |}
  ∧ status (render (get_token realtime_mini
                      (mocked (with_key "sk-test") (inr ok_surrogate))).1) ≠ 200.
Proof. repeat split. discriminate. Qed.

(** C1, amended. When the upstream answers with a status below 400 and a
    JSON object, the handler returns 200 with [{"token": v}] if the object has
    [value = v] for a string [v] that UTF-8 can encode, and 200 with
    [{"token": null}] if the object has no [value]; it does not raise. *)
Theorem success_relays_value
    (req : TokenRequest) (w : World) (key : string) (resp : Response)
    (kvs : list (string * Json)) :
  environ w !! API_KEY = Some key → key ≠ "" →
  upstream w (length (calls w)) (post_args key req) = inr resp →
  status_code resp < 400 →
  resp_json resp = Some (JDict kvs) →
  (∀ v : string, dict_get "value" kvs = Some (JStr v) →
     has_surrogate v = false →
     (get_token req w).1 =
       inr {| content := JDict [("token", JStr v)]; response_status := 200 |} ∧
     render (get_token req w).1 =
       {| status := 200; body := JsonBody (JDict [("token", JStr v)]) |}) ∧
  (dict_get "value" kvs = None →
     (get_token req w).1 =
       inr {| content := JDict [("token", JNull)]; response_status := 200 |} ∧
     render (get_token req w).1 =
       {| status := 200; body := JsonBody (JDict [("token", JNull)]) |}).
Proof.
  intros Hkey Hne Hup Hst Hjson.
  rewrite (get_token_keyed req w key Hkey Hne), Hup, Hjson.
  rewrite bool_decide_eq_false_2 by lia. cbn [fst].
  split; [intros v Hv Hplain | intros Hv]; rewrite Hv;
    cbn [default from_option id]; cbn zeta; rewrite render_error_entry by reflexivity;
    unfold render_error; cbn [finite encodable negb];
    rewrite ?Hplain; split; reflexivity.
Qed.

Lemma success_relays_value_witness :
  render (get_token realtime_mini (mocked (with_key "sk-test") (inr ok_secret))).1
    = {| status := 200; body := JsonBody (JDict [("token", JStr "secret-abc")]) |}
  ∧ render (get_token realtime_mini (mocked (with_key "sk-test") (inr ok_empty))).1
    = {| status := 200; body := JsonBody (JDict [("token", JNull)]) |}.
Proof.
  split.
  - refine (proj2 (proj1 (success_relays_value realtime_mini
              (mocked (with_key "sk-test") (inr ok_secret)) "sk-test" ok_secret
              [("value", JStr "secret-abc")] _ _ _ _ _) "secret-abc" _ _));
      first [reflexivity | discriminate | vm_compute; reflexivity].
  - refine (proj2 (proj2 (success_relays_value realtime_mini
              (mocked (with_key "sk-test") (inr ok_empty)) "sk-test" ok_empty
              [] _ _ _ _ _) _));
      first [reflexivity | discriminate | vm_compute; reflexivity].
Defined.

(** C2. When [OPENAI_API_KEY] is unset or empty, the handler raises
    [HTTPException] 500 with the fixed message, which the client sees as a
    500, and the log of outbound calls is what it was: nothing was sent. *)
Theorem missing_secret_fails_before_upstream (req : TokenRequest) (w : World) :
  environ w !! API_KEY = None ∨ environ w !! API_KEY = Some "" →
  get_token req w =
    (inl (HTTPException 500 (JStr "Missing OPENAI_API_KEY environment variable")),
     w) ∧
  render (get_token req w).1 =
    {| status := 500;
       body := JsonBody
                 (JDict [("detail",
                          JStr "Missing OPENAI_API_KEY environment variable")]) |} ∧
  calls (get_token req w).2 = calls w.
Proof.
  intros Habsent.
  assert (Hnot : py_not (environ w !! API_KEY) = true)
    by (destruct Habsent as [-> | ->]; reflexivity).
  rewrite (get_token_no_key req w Hnot). repeat split.
Qed.

Lemma missing_secret_fails_before_upstream_witness :
  calls (get_token realtime_mini (mocked ∅ (inr ok_secret))).2 = []
  ∧ calls (get_token realtime_mini (mocked (with_key "") (inr ok_secret))).2 = [].
Proof.
  split.
  - refine (proj2 (proj2 (missing_secret_fails_before_upstream realtime_mini
              (mocked ∅ (inr ok_secret)) (or_introl _)))).
    reflexivity.
  - refine (proj2 (proj2 (missing_secret_fails_before_upstream realtime_mini
              (mocked (with_key "") (inr ok_secret)) (or_intror _)))).
    vm_compute; reflexivity.
Defined.

(** C3, as stated, fails for a body the response cannot carry: a 401
    whose JSON body holds a number that is not finite makes the handler raise
    its 502, but that exception's response cannot be rendered and the client
    gets the server's plain 500. *)
Lemma unrenderable_upstream_error_is_500 :
  (get_token realtime_mini
     (mocked (with_key "sk-test") (inr unauthorized_infinity))).1
    = inl (HTTPException 502
             (JDict [("upstream_error",
                      JDict [("error", JFloat PrimFloat.infinity)])]))
  ∧ render (get_token realtime_mini
              (mocked (with_key "sk-test") (inr unauthorized_infinity))).1
    = {| status := 500; body := TextBody "Internal Server Error" |}
  ∧ status (render (get_token realtime_mini
                      (mocked (with_key "sk-test")
                         (inr unauthorized_infinity))).1) ≠ 502.
Proof. repeat split. discriminate. Qed.

(** C3, amended. When the upstream answers with a status of 400 or more,
    the handler raises [HTTPException] 502 whose detail holds, under
    [upstream_error], the decoded body if the body is JSON and the raw text
    otherwise.  The client sees a 502 carrying that detail when the detail
    can be rendered (finite numbers, no unpaired surrogate), and the server's
    plain 500 when it cannot. *)
Theorem upstream_error_is_502
    (req : TokenRequest) (w : World) (key : string) (resp : Response) :
  environ w !! API_KEY = Some key → key ≠ "" →
  upstream w (length (calls w)) (post_args key req) = inr resp →
  400 ≤ status_code resp →
  (∀ j : Json, resp_json resp = Some j →
     (get_token req w).1 =
       inl (HTTPException 502 (JDict [("upstream_error", j)])) ∧
     (render_error j = None →
      render (get_token req w).1 =
        {| status := 502;
           body := JsonBody
                     (JDict [("detail", JDict [("upstream_error", j)])]) |}) ∧
     (render_error j ≠ None →
      render (get_token req w).1 =
        {| status := 500; body := TextBody "Internal Server Error" |})) ∧
  (resp_json resp = None →
     (get_token req w).1 =
       inl (HTTPException 502 (JDict [("upstream_error", JStr (text resp))])) ∧
     (has_surrogate (text resp) = false →
      render (get_token req w).1 =
        {| status := 502;
           body := JsonBody
                     (JDict [("detail",
                              JDict [("upstream_error", JStr (text resp))])]) |}) ∧
     (has_surrogate (text resp) = true →
      render (get_token req w).1 =
        {| status := 500; body := TextBody "Internal Server Error" |})).
Proof.
  intros Hkey Hne Hup Hst.
  rewrite (get_token_keyed req w key Hkey Hne), Hup.
  rewrite bool_decide_eq_true_2 by lia. cbn [fst].
  split; [intros j Hj | intros Hj]; rewrite Hj; cbn [default from_option id];
    (split; [reflexivity|]); cbn [render];
    rewrite !render_error_entry by reflexivity.
  - split; [now intros -> | now destruct (render_error j)].
  - unfold render_error. cbn [finite encodable negb].
    split; now intros ->.
Qed.

Lemma upstream_error_is_502_witness :
  render (get_token realtime_mini (mocked (with_key "sk-test") (inr unauthorized))).1
    = {| status := 502;
         body := JsonBody
                   (JDict [("detail",
                            JDict [("upstream_error",
                                    JDict [("error", JStr "bad key")])])]) |}
  ∧ render (get_token realtime_mini
              (mocked (with_key "sk-test") (inr bad_gateway_page))).1
    = {| status := 502;
         body := JsonBody
                   (JDict [("detail",
                            JDict [("upstream_error",
                                    JStr "<html>Service Unavailable</html>")])]) |}.
Proof.
  split.
  - refine (proj1 (proj2 (proj1 (upstream_error_is_502 realtime_mini
              (mocked (with_key "sk-test") (inr unauthorized)) "sk-test"
              unauthorized _ _ _ _) _ _)) _);
      first [reflexivity | discriminate | vm_compute; discriminate].
  - refine (proj1 (proj2 (proj2 (upstream_error_is_502 realtime_mini
              (mocked (with_key "sk-test") (inr bad_gateway_page)) "sk-test"
              bad_gateway_page _ _ _ _) _)) _);
      first [reflexivity | discriminate | vm_compute; discriminate].
Defined.

(** ** Properties of the route *)

(** A body the route accepts is handed to the handler, whose outcome is
    rendered. *)
Lemma post_api_token_accepted
    (request_body : option Json) (req : TokenRequest) (w : World) :
  validate request_body = inr req →
  post_api_token request_body w = (render (get_token req w).1, (get_token req w).2).
Proof.
  intros Hv. unfold post_api_token. rewrite Hv. now destruct (get_token req w).
Qed.

(** A body the route rejects never reaches the handler. *)
Lemma post_api_token_rejected
    (request_body : option Json) (err : ValidationError) (w : World) :
  validate request_body = inl err →
  post_api_token request_body w = (unprocessable err, w).
Proof. intros Hv. unfold post_api_token. now rewrite Hv. Qed.

(** C4, as stated, fails for a request without a body: the parameter
    [req: TokenRequest] is required, so the route answers 422 and the handler
    does not run, even with a key and a healthy upstream. *)
Lemma missing_body_is_rejected :
  (∀ req : TokenRequest, validate None ≠ inr req) ∧
  post_api_token None (mocked (with_key "sk-test") (inr ok_secret)) =
    ({| status := 422; body := ValidationBody [Missing ["body"]] |},
     mocked (with_key "sk-test") (inr ok_secret)).
Proof. split; [discriminate | reflexivity]. Qed.

(** C4, amended. A JSON object without a [model] key is accepted with
    [model = "gpt-realtime"], and that is the model of the payload sent
    upstream; a request without a body is rejected with a 422 and nothing is
    sent. *)
Theorem model_defaults_when_field_omitted
    (kvs : list (string * Json)) (w : World) (key : string) :
  dict_get "model" kvs = None →
  environ w !! API_KEY = Some key → key ≠ "" →
  validate (Some (JDict kvs)) = inr {| model := "gpt-realtime" |} ∧
  calls (post_api_token (Some (JDict kvs)) w).2 =
    calls w ++ [post_args key {| model := "gpt-realtime" |}] ∧
  json (post_args key {| model := "gpt-realtime" |}) =
    JDict [("session",
            JDict [("type", JStr "realtime");
                   ("model", JStr "gpt-realtime");
                   ("tools", JList tools)])] ∧
  post_api_token None w =
    ({| status := 422; body := ValidationBody [Missing ["body"]] |}, w).
Proof.
  intros Hmodel Hkey Hne.
  assert (Hv : validate (Some (JDict kvs)) = inr TokenRequest_default)
    by (unfold validate; now rewrite Hmodel).
  split; [exact Hv|]. split; [|split; reflexivity].
  rewrite (post_api_token_accepted _ _ w Hv). cbn [snd].
  now rewrite (get_token_world _ w key Hkey Hne).
Qed.

Lemma model_defaults_when_field_omitted_witness :
  validate (Some (JDict [("voice", JStr "alloy")])) = inr {| model := "gpt-realtime" |}.
Proof.
  refine (proj1 (model_defaults_when_field_omitted [("voice", JStr "alloy")]
                   (mocked (with_key "sk-test") (inr ok_secret)) "sk-test" _ _ _));
    first [reflexivity | discriminate].
Defined.

(** C9, as stated, fails for a model the error cannot echo: with
    [{"model": 1e400}] the body is refused and nothing is sent, but the 422
    that reports it holds the refused infinity and cannot be rendered, so the
    client gets the server's plain 500. *)
Lemma non_finite_model_is_500 :
  post_api_token (Some model_infinity) (mocked (with_key "sk-test") (inr ok_secret))
    = ({| status := 500; body := TextBody "Internal Server Error" |},
       mocked (with_key "sk-test") (inr ok_secret))
  ∧ status (post_api_token (Some model_infinity)
              (mocked (with_key "sk-test") (inr ok_secret))).1 ≠ 422.
Proof. split; [reflexivity | discriminate]. Qed.

(** C9, amended. A JSON object whose [model] is not a string is refused
    before the handler runs: the world, and with it the log of outbound
    calls, is untouched.  The client sees a 422 when the refused value can be
    rendered in the error (finite numbers, no unpaired surrogate), and the
    server's plain 500 when it cannot. *)
Theorem non_string_model_is_rejected
    (kvs : list (string * Json)) (j : Json) (w : World) :
  dict_get "model" kvs = Some j →
  (∀ s : string, j ≠ JStr s) →
  validate (Some (JDict kvs)) = inl (StringType ["body"; "model"] j) ∧
  (post_api_token (Some (JDict kvs)) w).2 = w ∧
  calls (post_api_token (Some (JDict kvs)) w).2 = calls w ∧
  (render_error j = None →
   (post_api_token (Some (JDict kvs)) w).1 =
     {| status := 422;
        body := ValidationBody [StringType ["body"; "model"] j] |}) ∧
  (render_error j ≠ None →
   (post_api_token (Some (JDict kvs)) w).1 =
     {| status := 500; body := TextBody "Internal Server Error" |}).
Proof.
  intros Hmodel Hnot.
  assert (Hv : validate (Some (JDict kvs)) = inl (StringType ["body"; "model"] j)).
  { unfold validate. rewrite Hmodel. destruct j; try reflexivity.
    now destruct (Hnot s). }
  rewrite (post_api_token_rejected _ _ w Hv). cbn [fst snd].
  unfold unprocessable. cbn [error_input].
  repeat split; [exact Hv | now intros -> |].
  intros Hraised. destruct (render_error j); [reflexivity | now destruct Hraised].
Qed.

Lemma non_string_model_is_rejected_witness :
  (post_api_token (Some (JDict [("model", JNum 4)]))
     (mocked (with_key "sk-test") (inr ok_secret))).1
    = {| status := 422;
         body := ValidationBody [StringType ["body"; "model"] (JNum 4)] |}
  ∧ calls (post_api_token (Some (JDict [("model", JDict [("name", JStr "x")])]))
           (mocked (with_key "sk-test") (inr ok_secret))).2 = [].
Proof.
  split.
  - refine (proj1 (proj2 (proj2 (proj2 (non_string_model_is_rejected
              [("model", JNum 4)] (JNum 4)
              (mocked (with_key "sk-test") (inr ok_secret)) _ _)))) _);
      first [reflexivity | discriminate].
  - refine (proj1 (proj2 (proj2 (non_string_model_is_rejected
              [("model", JDict [("name", JStr "x")])] (JDict [("name", JStr "x")])
              (mocked (with_key "sk-test") (inr ok_secret)) _ _))));
      first [reflexivity | discriminate].
Defined.

(** ** The outbound call *)

(** C5. With a key, the handler makes exactly one outbound call, whatever
    the upstream does with it: a POST to the fixed URL with the bearer key
    and the JSON content type as headers, a timeout of 10, and as body the
    session payload in which only [model] comes from the request. *)
Theorem outbound_call_shape (req : TokenRequest) (w : World) (key : string) :
  environ w !! API_KEY = Some key → key ≠ "" →
  calls (get_token req w).2 =
    calls w ++
    [ {| url := "https://api.openai.com/v1/realtime/client_secrets";
         headers := [("Authorization", "Bearer " +:+ key);
                     ("Content-Type", "application/json")];
         json :=
           JDict
             [("session",
               JDict
                 [("type", JStr "realtime");
                  ("model", JStr (model req));
                  ("tools",
                   JList
                     [JDict [("type", JStr "mcp");
                             ("server_label", JStr "deepwiki");
                             ("server_url", JStr "https://mcp.deepwiki.com/sse");
                             ("require_approval", JStr "always")];
                      JDict [("type", JStr "mcp");
                             ("server_label", JStr "dnd");
                             ("server_url", JStr "https://dmcp-server.deno.dev/sse");
                             ("require_approval", JStr "always")]])])];
         timeout := 10 |} ].
Proof.
  intros Hkey Hne. now rewrite (get_token_world req w key Hkey Hne).
Qed.

Lemma outbound_call_shape_witness :
  length (calls (get_token realtime_mini
                   (mocked (with_key "sk-test") (inl ReadTimeout))).2) = 1%nat.
Proof.
  rewrite (outbound_call_shape realtime_mini
             (mocked (with_key "sk-test") (inl ReadTimeout)) "sk-test");
    first [reflexivity | discriminate].
Defined.

(** ** Failures the handler does not catch *)

(** C6, as stated, fails: a 200 whose body is an HTML page makes
    [resp.json()] raise outside any [try]; the exception is no
    [HTTPException], and the client gets the server's plain 500. *)
Lemma malformed_success_is_not_502 :
  (get_token realtime_mini (mocked (with_key "sk-test") (inr ok_page))).1
    = inl JSONDecodeError
  ∧ render (get_token realtime_mini (mocked (with_key "sk-test") (inr ok_page))).1
    = {| status := 500; body := TextBody "Internal Server Error" |}
  ∧ status (render (get_token realtime_mini
                      (mocked (with_key "sk-test") (inr ok_page))).1) ≠ 502.
Proof. repeat split. discriminate. Qed.

(** C6, amended. When the upstream answers with a status below 400 and a
    body that is not JSON, the decoder's error leaves the handler; when the
    body is JSON but not an object, the [get] lookup's error does.  Either
    way the client sees the server's plain 500, not a 502. *)
Theorem malformed_success_propagates
    (req : TokenRequest) (w : World) (key : string) (resp : Response) :
  environ w !! API_KEY = Some key → key ≠ "" →
  upstream w (length (calls w)) (post_args key req) = inr resp →
  status_code resp < 400 →
  (resp_json resp = None → (get_token req w).1 = inl JSONDecodeError) ∧
  (∀ j : Json, resp_json resp = Some j →
     (∀ kvs : list (string * Json), j ≠ JDict kvs) →
     (get_token req w).1 = inl AttributeError) ∧
  ((∀ kvs : list (string * Json), resp_json resp ≠ Some (JDict kvs)) →
     render (get_token req w).1 =
       {| status := 500; body := TextBody "Internal Server Error" |}).
Proof.
  intros Hkey Hne Hup Hst.
  rewrite (get_token_keyed req w key Hkey Hne), Hup.
  rewrite bool_decide_eq_false_2 by lia. cbn [fst].
  split; [|split].
  - now intros ->.
  - intros j -> Hj. destruct j; try reflexivity. now destruct (Hj kvs).
  - intros Hj. destruct (resp_json resp) as [[]|]; try reflexivity.
    now destruct (Hj kvs).
Qed.

Lemma malformed_success_propagates_witness :
  (get_token realtime_mini (mocked (with_key "sk-test") (inr ok_list))).1
    = inl AttributeError.
Proof.
  refine (proj1 (proj2 (malformed_success_propagates realtime_mini
            (mocked (with_key "sk-test") (inr ok_list)) "sk-test" ok_list
            _ _ _ _)) (JList [JStr "a"]) _ _);
    first [reflexivity | discriminate].
Defined.

(** C7, as stated, fails: when the call times out, the transport's
    exception leaves the handler as it is, and the client gets the server's
    plain 500 with no [upstream_error] anywhere. *)
Lemma transport_failure_is_not_502 :
  (get_token realtime_mini (mocked (with_key "sk-test") (inl ReadTimeout))).1
    = inl (TransportError ReadTimeout)
  ∧ render (get_token realtime_mini
              (mocked (with_key "sk-test") (inl ReadTimeout))).1
    = {| status := 500; body := TextBody "Internal Server Error" |}
  ∧ status (render (get_token realtime_mini
                      (mocked (with_key "sk-test") (inl ReadTimeout))).1) ≠ 502.
Proof. repeat split. discriminate. Qed.

(** C7, amended. When the outbound call fails to reach the upstream, the
    transport's exception leaves the handler uncaught, so the client sees the
    server's plain 500; the call was made once and not again, and no success
    is reported. *)
Theorem transport_failure_propagates
    (req : TokenRequest) (w : World) (key : string) (e : HttpxError) :
  environ w !! API_KEY = Some key → key ≠ "" →
  upstream w (length (calls w)) (post_args key req) = inl e →
  (get_token req w).1 = inl (TransportError e) ∧
  render (get_token req w).1 =
    {| status := 500; body := TextBody "Internal Server Error" |} ∧
  calls (get_token req w).2 = calls w ++ [post_args key req].
Proof.
  intros Hkey Hne Hup.
  rewrite (get_token_keyed req w key Hkey Hne), Hup. repeat split.
Qed.

Lemma transport_failure_propagates_witness :
  calls (get_token realtime_mini
           (mocked (with_key "sk-test") (inl ConnectError))).2
    = [post_args "sk-test" realtime_mini].
Proof.
  refine (proj2 (proj2 (transport_failure_propagates realtime_mini
            (mocked (with_key "sk-test") (inl ConnectError)) "sk-test"
            ConnectError _ _ _)));
    first [reflexivity | discriminate].
Defined.

(** ** Requests in sequence *)

(** The same request twice: the first fails, the second succeeds. *)
Example flaky_twice :
  (get_token realtime_mini (flaky (with_key "sk-test"))).1
    = inl (TransportError ReadTimeout)
  ∧ (get_token realtime_mini
       (get_token realtime_mini (flaky (with_key "sk-test"))).2).1
    = inr {| content := JDict [("token", JStr "secret-abc")];
             response_status := 200 |}.
Proof. split; reflexivity. Qed.

(** C8. With a key, a request adds exactly one call to the log and changes
    nothing else of the world; the same request again adds the same call
    again; and the outcome of the second is fixed by the upstream's answer to
    the second call alone, whatever the first was answered. *)
Theorem sequential_requests_are_independent
    (req : TokenRequest) (w : World) (key : string) :
  environ w !! API_KEY = Some key → key ≠ "" →
  environ (get_token req w).2 = environ w ∧
  upstream (get_token req w).2 = upstream w ∧
  calls (get_token req w).2 = calls w ++ [post_args key req] ∧
  environ (get_token req (get_token req w).2).2 = environ w ∧
  calls (get_token req (get_token req w).2).2 =
    calls w ++ [post_args key req; post_args key req] ∧
  (∀ w' : World,
     environ w' = environ w →
     length (calls w') = length (calls w) →
     upstream w' (S (length (calls w))) (post_args key req) =
       upstream w (S (length (calls w))) (post_args key req) →
     (get_token req (get_token req w').2).1 =
       (get_token req (get_token req w).2).1).
Proof.
  intros Hkey Hne.
  assert (Hlen : ∀ v : World,
            length (calls (logged (post_args key req) v)) = S (length (calls v))).
  { intros v. cbn [logged calls]. rewrite length_app. cbn [length]. lia. }
  rewrite (get_token_world req w key Hkey Hne).
  rewrite (get_token_world req (logged (post_args key req) w) key Hkey Hne).
  repeat split.
  - cbn [logged calls]. now rewrite <- app_assoc.
  - intros w' Henv Hcalls Hanswer.
    assert (Hkey' : environ w' !! API_KEY = Some key) by now rewrite Henv.
    rewrite (get_token_world req w' key Hkey' Hne).
    rewrite (get_token_keyed req (logged (post_args key req) w') key Hkey' Hne).
    rewrite (get_token_keyed req (logged (post_args key req) w) key Hkey Hne).
    rewrite !Hlen, Hcalls. cbn [logged upstream fst]. now rewrite Hanswer.
Qed.

Lemma sequential_requests_are_independent_witness :
  calls (get_token realtime_mini
           (get_token realtime_mini (flaky (with_key "sk-test"))).2).2
    = [post_args "sk-test" realtime_mini; post_args "sk-test" realtime_mini]
  ∧ (get_token realtime_mini
       (get_token realtime_mini (mocked (with_key "sk-test") (inr ok_secret))).2).1
    = (get_token realtime_mini
         (get_token realtime_mini (flaky (with_key "sk-test"))).2).1.
Proof.
  pose proof (sequential_requests_are_independent realtime_mini
                (flaky (with_key "sk-test")) "sk-test") as H.
  destruct H as (_ & _ & _ & _ & Hcalls & Hsecond);
    [reflexivity | discriminate |].
  split; [exact Hcalls |].
  apply Hsecond; reflexivity.
Defined.

(** ** The key and the client *)

(** C10. Two runs of the same request under different non-empty keys,
    with the upstream giving the same answer, have the same outcome and the
    same rendered response; the two outbound calls agree on URL, body and
    timeout and differ in the [Authorization] header alone. *)
Theorem response_independent_of_key
    (req : TokenRequest) (w1 w2 : World) (k1 k2 : string)
    (answer : HttpxError + Response) :
  environ w1 !! API_KEY = Some k1 → k1 ≠ "" →
  environ w2 !! API_KEY = Some k2 → k2 ≠ "" →
  upstream w1 (length (calls w1)) (post_args k1 req) = answer →
  upstream w2 (length (calls w2)) (post_args k2 req) = answer →
  (get_token req w1).1 = (get_token req w2).1 ∧
  render (get_token req w1).1 = render (get_token req w2).1 ∧
  ∃ p1 p2 : Post,
    calls (get_token req w1).2 = calls w1 ++ [p1] ∧
    calls (get_token req w2).2 = calls w2 ++ [p2] ∧
    url p1 = url p2 ∧ json p1 = json p2 ∧ timeout p1 = timeout p2 ∧
    headers p1 = [("Authorization", "Bearer " +:+ k1);
                  ("Content-Type", "application/json")] ∧
    headers p2 = [("Authorization", "Bearer " +:+ k2);
                  ("Content-Type", "application/json")].
Proof.
  intros Hk1 Hne1 Hk2 Hne2 Hup1 Hup2.
  rewrite (get_token_keyed req w1 k1 Hk1 Hne1), Hup1.
  rewrite (get_token_keyed req w2 k2 Hk2 Hne2), Hup2.
  cbn [fst snd]. split; [reflexivity|]. split; [reflexivity|].
  exists (post_args k1 req), (post_args k2 req). repeat split.
Qed.

Lemma response_independent_of_key_witness :
  render (get_token realtime_mini (mocked (with_key "sk-one") (inr unauthorized))).1
    = render (get_token realtime_mini
                (mocked (with_key "sk-two") (inr unauthorized))).1.
Proof.
  refine (proj1 (proj2 (response_independent_of_key realtime_mini
            (mocked (with_key "sk-one") (inr unauthorized))
            (mocked (with_key "sk-two") (inr unauthorized))
            "sk-one" "sk-two" (inr unauthorized) _ _ _ _ _ _)));
    first [reflexivity | discriminate].
Defined.

(** ** What each status tells the client *)

Lemma py_not_true (o : option string) :
  py_not o = true ↔ o = None ∨ o = Some "".
Proof.
  destruct o as [k|]; cbn [py_not].
  - rewrite bool_decide_eq_true. split; [intros ->; now right | ].
    intros [? | [= ->]]; [discriminate | reflexivity].
  - split; [now left | reflexivity].
Qed.

(** Either there is no usable key, or there is a non-empty one. *)
Lemma key_cases (w : World) :
  py_not (environ w !! API_KEY) = true ∨
  ∃ key : string, environ w !! API_KEY = Some key ∧ key ≠ "".
Proof.
  destruct (environ w !! API_KEY) as [k|] eqn:Hk; [|now left].
  destruct (decide (k = "")) as [-> | Hne]; [now left | right; eauto].
Qed.

(** The 500 of a missing key can always be rendered. *)
Lemma render_missing_key :
  render (inl (HTTPException 500 missing_key_detail)) =
    {| status := 500; body := JsonBody (JDict [("detail", missing_key_detail)]) |}.
Proof. reflexivity. Qed.

(** Rendering fails in one of two ways. *)
Lemma render_error_raises (c : Json) (raised : Exn) :
  render_error c = Some raised →
  raised = ValueError ∨ raised = UnicodeEncodeError.
Proof.
  unfold render_error.
  destruct (negb (finite c)); [intros [= <-]; now left|].
  destruct (negb (encodable c)); [intros [= <-]; now right | discriminate].
Qed.

(** Splits a goal about [get_token req w] into the handler's ways out, and
    each into whether the response at stake can be rendered. *)
Ltac handler_cases req w :=
  let Hnot := fresh "Hnot" in
  let key := fresh "key" in
  let Hkey := fresh "Hkey" in
  let Hne := fresh "Hne" in
  let e := fresh "e" in
  let resp := fresh "resp" in
  let Hup := fresh "Hup" in
  let Hst := fresh "Hst" in
  let Hjson := fresh "Hjson" in
  destruct (key_cases w) as [Hnot | (key & Hkey & Hne)];
  [ rewrite (get_token_no_key req w Hnot)
  | rewrite (get_token_keyed req w key Hkey Hne);
    destruct (upstream w (length (calls w)) (post_args key req))
      as [e | resp] eqn:Hup;
    [ | case_bool_decide as Hst;
        [ | destruct (resp_json resp) as [[]|] eqn:Hjson ] ] ];
  cbn [fst snd]; rewrite ?render_missing_key; cbn [render]; cbn zeta;
  repeat match goal with
         | |- context [match render_error ?c with _ => _ end] =>
             let Hrender := fresh "Hrender" in
             let raised := fresh "raised" in
             destruct (render_error c) as [raised|] eqn:Hrender;
             [ destruct (render_error_raises _ _ Hrender) as [-> | ->] | ]
         end;
  cbn [render status body response_status content internal_server_error].

(** X1. Whatever the request, the environment and the upstream do, the
    client is answered with 200, 500 or 502: the upstream's own status code is
    never passed on. *)
Theorem handler_status_is_200_500_or_502 (req : TokenRequest) (w : World) :
  status (render (get_token req w).1) = 200 ∨
  status (render (get_token req w).1) = 500 ∨
  status (render (get_token req w).1) = 502.
Proof. handler_cases req w; auto. Qed.

(** X2. The client is answered 502 exactly when a call was made with a
    usable key, the upstream answered it with a status of 400 or more, and
    the detail taken from that answer can be rendered; neither a transport
    failure nor a malformed body ever gives a 502. *)
Theorem bad_gateway_iff_upstream_refused (req : TokenRequest) (w : World) :
  status (render (get_token req w).1) = 502 ↔
  ∃ (key : string) (resp : Response),
    environ w !! API_KEY = Some key ∧ key ≠ "" ∧
    upstream w (length (calls w)) (post_args key req) = inr resp ∧
    400 ≤ status_code resp ∧
    render_error (default (JStr (text resp)) (resp_json resp)) = None.
Proof.
  split.
  - handler_cases req w; try discriminate. intros _.
    rewrite !render_error_entry in Hrender by reflexivity. eauto 7.
  - intros (key & resp & Hkey & Hne & Hup & Hst & Hrender).
    rewrite (get_token_keyed req w key Hkey Hne), Hup.
    rewrite bool_decide_eq_true_2 by exact Hst. cbn [fst render].
    now rewrite !render_error_entry, Hrender by reflexivity.
Qed.

(** X3. The client is answered 200 exactly when a call was made with a
    usable key, the upstream answered it with a status below 400 and a body
    that is a JSON object, and the [value] of that object (or [null], without
    one) can be rendered. *)
Theorem ok_iff_upstream_object (req : TokenRequest) (w : World) :
  status (render (get_token req w).1) = 200 ↔
  ∃ (key : string) (resp : Response) (kvs : list (string * Json)),
    environ w !! API_KEY = Some key ∧ key ≠ "" ∧
    upstream w (length (calls w)) (post_args key req) = inr resp ∧
    status_code resp < 400 ∧
    resp_json resp = Some (JDict kvs) ∧
    render_error (default JNull (dict_get "value" kvs)) = None.
Proof.
  split.
  - handler_cases req w; try discriminate. intros _.
    rewrite render_error_entry in Hrender by reflexivity.
    exists key, resp, kvs. repeat split; auto. lia.
  - intros (key & resp & kvs & Hkey & Hne & Hup & Hst & Hjson & Hrender).
    rewrite (get_token_keyed req w key Hkey Hne), Hup, Hjson.
    rewrite bool_decide_eq_false_2 by lia. cbn [fst]. cbn zeta.
    now rewrite render_error_entry, Hrender by reflexivity.
Qed.

(** X4. The handler raises the 500 [HTTPException] exactly when the key
    is unset or empty; with a usable key a 500 seen by the client is never
    that exception but the server's plain-text one. *)
Theorem configuration_error_iff_no_key (req : TokenRequest) (w : World) :
  ((∃ detail : Json, (get_token req w).1 = inl (HTTPException 500 detail)) ↔
   environ w !! API_KEY = None ∨ environ w !! API_KEY = Some "") ∧
  ((∃ key : string, environ w !! API_KEY = Some key ∧ key ≠ "") →
   status (render (get_token req w).1) = 500 →
   body (render (get_token req w).1) = TextBody "Internal Server Error").
Proof.
  split; [split|].
  - handler_cases req w; intros [detail Hraised]; try discriminate.
    now apply py_not_true.
  - intros Hno. apply py_not_true in Hno.
    rewrite (get_token_no_key req w Hno). eauto.
  - intros (k & Hk & Hk'). handler_cases req w; cbn [body]; try discriminate;
      try reflexivity.
    apply py_not_true in Hnot. destruct Hnot; congruence.
Qed.

Lemma bad_gateway_iff_upstream_refused_witness :
  status (render (get_token realtime_mini
                    (mocked (with_key "sk-test") (inr bad_gateway_page))).1) = 502.
Proof.
  apply (proj2 (bad_gateway_iff_upstream_refused realtime_mini
                  (mocked (with_key "sk-test") (inr bad_gateway_page)))).
  exists "sk-test", bad_gateway_page.
  repeat split; first [reflexivity | discriminate].
Defined.

Lemma ok_iff_upstream_object_witness :
  status (render (get_token realtime_mini
                    (mocked (with_key "sk-test") (inr created_rich))).1) = 200.
Proof.
  apply (proj2 (ok_iff_upstream_object realtime_mini
                  (mocked (with_key "sk-test") (inr created_rich)))).
  exists "sk-test", created_rich,
    [("expires_at", JNum 1757000000); ("value", JStr "secret-abc")].
  repeat split; first [reflexivity | discriminate].
Defined.

Lemma configuration_error_iff_no_key_witness :
  body (render (get_token realtime_mini
                  (mocked (with_key "sk-test") (inr ok_page))).1)
    = TextBody "Internal Server Error".
Proof.
  apply (proj2 (configuration_error_iff_no_key realtime_mini
                  (mocked (with_key "sk-test") (inr ok_page)))).
  - exists "sk-test". split; [reflexivity | discriminate].
  - reflexivity.
Defined.

(** ** What of the upstream's answer reaches the client *)

(** X5. On an answer with a status below 400 and a JSON object, the
    token is the object's [value] as it is, whatever JSON value that is, as
    long as it can be rendered: a finite number, an object or an explicit
    [null] are passed on like a string.  A [value] that cannot be rendered (a
    number that is not finite, a string with an unpaired surrogate) gives the
    client the server's plain 500. *)
Theorem token_is_value_verbatim
    (req : TokenRequest) (w : World) (key : string) (resp : Response)
    (kvs : list (string * Json)) (j : Json) :
  environ w !! API_KEY = Some key → key ≠ "" →
  upstream w (length (calls w)) (post_args key req) = inr resp →
  status_code resp < 400 →
  resp_json resp = Some (JDict kvs) →
  dict_get "value" kvs = Some j →
  (render_error j = None →
   render (get_token req w).1 =
     {| status := 200; body := JsonBody (JDict [("token", j)]) |}) ∧
  (render_error j ≠ None →
   render (get_token req w).1 =
     {| status := 500; body := TextBody "Internal Server Error" |}).
Proof.
  intros Hkey Hne Hup Hst Hjson Hvalue.
  rewrite (get_token_keyed req w key Hkey Hne), Hup, Hjson, Hvalue.
  rewrite bool_decide_eq_false_2 by lia. cbn [fst default from_option id].
  cbn zeta. rewrite render_error_entry by reflexivity.
  split; [now intros -> | intros Hraised].
  destruct (render_error j) as [raised|] eqn:Hrender; [|now destruct Hraised].
  destruct (render_error_raises _ _ Hrender) as [-> | ->]; reflexivity.
Qed.

Lemma token_is_value_verbatim_witness :
  render (get_token realtime_mini (mocked (with_key "sk-test") (inr ok_number))).1
    = {| status := 200; body := JsonBody (JDict [("token", JNum 42)]) |}
  ∧ render (get_token realtime_mini
              (mocked (with_key "sk-test") (inr ok_infinity))).1
    = {| status := 500; body := TextBody "Internal Server Error" |}.
Proof.
  split.
  - refine (proj1 (token_is_value_verbatim realtime_mini
              (mocked (with_key "sk-test") (inr ok_number)) "sk-test" ok_number
              [("value", JNum 42)] (JNum 42) _ _ _ _ _ _) _);
      first [reflexivity | discriminate].
  - refine (proj2 (token_is_value_verbatim realtime_mini
              (mocked (with_key "sk-test") (inr ok_infinity)) "sk-test"
              ok_infinity [("value", JFloat PrimFloat.infinity)]
              (JFloat PrimFloat.infinity) _ _ _ _ _ _) _);
      first [reflexivity | discriminate].
Defined.

(** X6. A successful response is a function of the upstream's [value]
    alone: two runs, under any requests, keys and worlds, whose upstream
    answers are objects with the same [value] entry (or both without one)
    give the client the same response, whatever else the answers hold and
    whatever their status below 400. *)
Theorem success_depends_only_on_value
    (req1 req2 : TokenRequest) (w1 w2 : World) (key1 key2 : string)
    (resp1 resp2 : Response) (kvs1 kvs2 : list (string * Json)) :
  environ w1 !! API_KEY = Some key1 → key1 ≠ "" →
  environ w2 !! API_KEY = Some key2 → key2 ≠ "" →
  upstream w1 (length (calls w1)) (post_args key1 req1) = inr resp1 →
  upstream w2 (length (calls w2)) (post_args key2 req2) = inr resp2 →
  status_code resp1 < 400 → status_code resp2 < 400 →
  resp_json resp1 = Some (JDict kvs1) → resp_json resp2 = Some (JDict kvs2) →
  dict_get "value" kvs1 = dict_get "value" kvs2 →
  render (get_token req1 w1).1 = render (get_token req2 w2).1.
Proof.
  intros Hk1 Hne1 Hk2 Hne2 Hup1 Hup2 Hst1 Hst2 Hj1 Hj2 Hvalue.
  rewrite (get_token_keyed req1 w1 key1 Hk1 Hne1), Hup1, Hj1.
  rewrite (get_token_keyed req2 w2 key2 Hk2 Hne2), Hup2, Hj2.
  rewrite !bool_decide_eq_false_2 by lia. now rewrite Hvalue.
Qed.

Lemma success_depends_only_on_value_witness :
  render (get_token realtime_mini (mocked (with_key "sk-one") (inr ok_secret))).1
    = render (get_token TokenRequest_default
                (mocked (with_key "sk-two") (inr created_rich))).1.
Proof.
  refine (success_depends_only_on_value realtime_mini TokenRequest_default
            (mocked (with_key "sk-one") (inr ok_secret))
            (mocked (with_key "sk-two") (inr created_rich))
            "sk-one" "sk-two" ok_secret created_rich
            [("value", JStr "secret-abc")]
            [("expires_at", JNum 1757000000); ("value", JStr "secret-abc")]
            _ _ _ _ _ _ _ _ _ _ _);
    first [reflexivity | discriminate].
Defined.

(** ** Any number of requests *)

Lemma handle_all_cons (req : TokenRequest) (rest : list TokenRequest) (w : World) :
  handle_all (req :: rest) w =
    ((get_token req w).1 :: (handle_all rest (get_token req w).2).1,
     (handle_all rest (get_token req w).2).2).
Proof.
  cbn [handle_all]. destruct (get_token req w) as [o w1].
  cbn [fst snd]. now destruct (handle_all rest w1).
Qed.

(** One request leaves the environment and the upstream alone and adds at
    most one call to the log. *)
Lemma get_token_frame (req : TokenRequest) (w : World) :
  environ (get_token req w).2 = environ w ∧
  upstream (get_token req w).2 = upstream w ∧
  (calls (get_token req w).2 = calls w ∨
   ∃ p : Post, calls (get_token req w).2 = calls w ++ [p]).
Proof.
  destruct (key_cases w) as [Hnot | (key & Hkey & Hne)].
  - rewrite (get_token_no_key req w Hnot). auto.
  - rewrite (get_token_world req w key Hkey Hne). cbn [logged]. eauto.
Qed.

(** X7. However many requests are handled and whatever happens to them,
    the environment and the upstream are as they were, every request has its
    outcome, and the log has only grown, by at most one call per request. *)
Theorem requests_only_append_calls (reqs : list TokenRequest) (w : World) :
  environ (handle_all reqs w).2 = environ w ∧
  upstream (handle_all reqs w).2 = upstream w ∧
  length (handle_all reqs w).1 = length reqs ∧
  calls w `prefix_of` calls (handle_all reqs w).2 ∧
  (length (calls (handle_all reqs w).2) ≤ length (calls w) + length reqs)%nat.
Proof.
  revert w. induction reqs as [|req rest IH]; intros w.
  - cbn [handle_all fst snd length]. repeat split; [reflexivity | lia].
  - rewrite handle_all_cons. cbn [fst snd length].
    destruct (IH (get_token req w).2) as (Henv & Hup & Hlen & Hpre & Hcalls).
    destruct (get_token_frame req w) as (Henv1 & Hup1 & Hlog).
    rewrite Henv, Hup, Hlen. repeat split; try assumption.
    + etransitivity; [|exact Hpre].
      destruct Hlog as [-> | [p ->]]; [reflexivity | now apply prefix_app_r].
    + destruct Hlog as [Hlog | [p Hlog]]; rewrite Hlog in Hcalls;
        [|rewrite length_app in Hcalls; cbn [length] in Hcalls]; lia.
Qed.

(** X8. With a usable key, handling a list of requests sends exactly one
    call per request, in the order of the requests, each with the model of
    its request, and leaves the rest of the world alone. *)
Theorem each_request_logs_its_call
    (reqs : list TokenRequest) (w : World) (key : string) :
  environ w !! API_KEY = Some key → key ≠ "" →
  (handle_all reqs w).2 =
    {| environ := environ w;
       upstream := upstream w;
       calls := calls w ++ map (post_args key) reqs |}.
Proof.
  intros Hkey Hne. revert w Hkey.
  induction reqs as [|req rest IH]; intros w Hkey.
  - cbn [handle_all snd map]. rewrite app_nil_r. now destruct w.
  - rewrite handle_all_cons. cbn [snd].
    rewrite (get_token_world req w key Hkey Hne).
    rewrite IH by exact Hkey.
    cbn [logged environ upstream calls map]. now rewrite <- app_assoc.
Qed.

Lemma each_request_logs_its_call_witness :
  calls (handle_all [realtime_mini; TokenRequest_default; realtime_mini]
           (flaky (with_key "sk-test"))).2
    = [post_args "sk-test" realtime_mini;
       post_args "sk-test" TokenRequest_default;
       post_args "sk-test" realtime_mini].
Proof.
  rewrite (each_request_logs_its_call
             [realtime_mini; TokenRequest_default; realtime_mini]
             (flaky (with_key "sk-test")) "sk-test");
    first [reflexivity | discriminate].
Defined.

(** X9. Without a usable key, every request of a list fails with the
    same 500 [HTTPException] and the world, with its log of calls, is as it
    was: nothing is ever sent. *)
Theorem without_key_nothing_is_sent (reqs : list TokenRequest) (w : World) :
  environ w !! API_KEY = None ∨ environ w !! API_KEY = Some "" →
  handle_all reqs w =
    (replicate (length reqs)
       (inl (HTTPException 500
               (JStr "Missing OPENAI_API_KEY environment variable"))),
     w).
Proof.
  intros Hno. apply py_not_true in Hno.
  induction reqs as [|req rest IH].
  - reflexivity.
  - rewrite handle_all_cons, (get_token_no_key req w Hno). cbn [fst snd].
    now rewrite IH.
Qed.

Lemma without_key_nothing_is_sent_witness :
  (handle_all [realtime_mini; realtime_mini]
     (mocked (with_key "") (inr ok_secret))).2
    = mocked (with_key "") (inr ok_secret).
Proof.
  rewrite (without_key_nothing_is_sent [realtime_mini; realtime_mini]
             (mocked (with_key "") (inr ok_secret)));
    [reflexivity | right; reflexivity].
Defined.

(** ** The key after start-up *)

(** Start-up touches the environment only. *)
Lemma startup_frame (env_file : option (gmap string string)) (w : World) :
  upstream (startup env_file w) = upstream w ∧
  calls (startup env_file w) = calls w.
Proof. now destruct env_file. Qed.

(** A variable the process was started with keeps its value. *)
Lemma startup_keeps (env_file : option (gmap string string)) (w : World)
    (name value : string) :
  environ w !! name = Some value →
  environ (startup env_file w) !! name = Some value.
Proof.
  intros Hset. destruct env_file as [file|]; [|exact Hset].
  cbn [startup load_dotenv environ]. now apply lookup_union_Some_l.
Qed.

(** X10. A key the process was started with is the one sent upstream,
    whether or not there is a [.env] file and whatever key that file names. *)
Theorem process_key_wins_over_dotenv
    (env_file : option (gmap string string)) (req : TokenRequest) (w : World)
    (key : string) :
  environ w !! API_KEY = Some key → key ≠ "" →
  calls (get_token req (startup env_file w)).2 = calls w ++ [post_args key req].
Proof.
  intros Hkey Hne.
  rewrite (get_token_world req (startup env_file w) key
             (startup_keeps env_file w _ _ Hkey) Hne).
  cbn [logged calls]. now rewrite (proj2 (startup_frame env_file w)).
Qed.

Lemma process_key_wins_over_dotenv_witness :
  calls (get_token realtime_mini
           (startup (Some (with_key "sk-from-file"))
              (mocked (with_key "sk-from-shell") (inr ok_secret)))).2
    = [post_args "sk-from-shell" realtime_mini].
Proof.
  refine (process_key_wins_over_dotenv (Some (with_key "sk-from-file"))
            realtime_mini (mocked (with_key "sk-from-shell") (inr ok_secret))
            "sk-from-shell" _ _);
    first [reflexivity | discriminate].
Defined.

(** X11. When the process was started without the variable and the
    [.env] file names a non-empty key, that key is the one sent upstream. *)
Theorem dotenv_supplies_missing_key
    (file : gmap string string) (req : TokenRequest) (w : World) (key : string) :
  environ w !! API_KEY = None →
  file !! API_KEY = Some key → key ≠ "" →
  calls (get_token req (startup (Some file) w)).2 = calls w ++ [post_args key req].
Proof.
  intros Hunset Hfile Hne.
  assert (Hkey : environ (startup (Some file) w) !! API_KEY = Some key).
  { cbn [startup load_dotenv environ]. rewrite lookup_union_r; assumption. }
  now rewrite (get_token_world req _ key Hkey Hne).
Qed.

Lemma dotenv_supplies_missing_key_witness :
  calls (get_token realtime_mini
           (startup (Some (with_key "sk-from-file")) (mocked ∅ (inr ok_secret)))).2
    = [post_args "sk-from-file" realtime_mini].
Proof.
  refine (dotenv_supplies_missing_key (with_key "sk-from-file") realtime_mini
            (mocked ∅ (inr ok_secret)) "sk-from-file" _ _ _);
    first [reflexivity | discriminate].
Defined.

(** X12. A variable set to the empty string when the process starts is
    not replaced by the [.env] file's key: every request then fails with the
    500 [HTTPException] and nothing is sent.  The same holds when the variable
    is unset and there is no file, or the file has no non-empty key. *)
Theorem empty_key_shadows_dotenv
    (env_file : option (gmap string string)) (req : TokenRequest) (w : World) :
  environ w !! API_KEY = Some "" ∨
  (environ w !! API_KEY = None ∧
   ∀ file : gmap string string, env_file = Some file →
     file !! API_KEY = None ∨ file !! API_KEY = Some "") →
  get_token req (startup env_file w) =
    (inl (HTTPException 500 (JStr "Missing OPENAI_API_KEY environment variable")),
     startup env_file w) ∧
  calls (get_token req (startup env_file w)).2 = calls w.
Proof.
  intros Hcase.
  assert (Hnot : py_not (environ (startup env_file w) !! API_KEY) = true).
  { apply py_not_true. destruct Hcase as [Hempty | [Hunset Hfile]].
    - right. now apply startup_keeps.
    - destruct env_file as [file|]; [|now left].
      cbn [startup load_dotenv environ]. rewrite lookup_union_r by exact Hunset.
      now apply Hfile. }
  rewrite (get_token_no_key req _ Hnot). cbn [snd].
  split; [reflexivity | apply startup_frame].
Qed.

Lemma empty_key_shadows_dotenv_witness :
  calls (get_token realtime_mini
           (startup (Some (with_key "sk-from-file"))
              (mocked (with_key "") (inr ok_secret)))).2 = [].
Proof.
  refine (proj2 (empty_key_shadows_dotenv (Some (with_key "sk-from-file"))
                   realtime_mini (mocked (with_key "") (inr ok_secret)) _)).
  left. vm_compute; reflexivity.
Defined.

(** ** Which bodies the route accepts *)

(** X14. The route answers 422 exactly when it rejects the body and the
    refused input can be rendered in the error; a 422 means that the handler
    did not run, and so does any rejection: the world, with its log of calls,
    is as it was.  The handler itself never produces a 422. *)
Theorem unprocessable_iff_rejected (request_body : option Json) (w : World) :
  (status (post_api_token request_body w).1 = 422 ↔
   ∃ err : ValidationError,
     validate request_body = inl err ∧ render_error (error_input err) = None) ∧
  (status (post_api_token request_body w).1 = 422 →
   (post_api_token request_body w).2 = w) ∧
  (∀ err : ValidationError, validate request_body = inl err →
   (post_api_token request_body w).2 = w).
Proof.
  destruct (validate request_body) as [err|req] eqn:Hv.
  - rewrite (post_api_token_rejected _ _ w Hv). cbn [fst snd].
    unfold unprocessable.
    split; [split|split; reflexivity].
    + destruct (render_error (error_input err)) eqn:Hrender;
        [discriminate | eauto].
    + intros (err' & [= <-] & ->). reflexivity.
  - rewrite (post_api_token_accepted _ _ w Hv). cbn [fst snd].
    assert (Hnever : status (render (get_token req w).1) ≠ 422)
      by (handler_cases req w; discriminate).
    split; [split|split]; [intros H422 | intros (err & [=] & _) | intros H422
                          | intros err [=]];
      now destruct Hnever.
Qed.

Lemma unprocessable_iff_rejected_witness :
  (post_api_token (Some (JList [JStr "gpt-realtime"]))
     (mocked (with_key "sk-test") (inr ok_secret))).2
    = mocked (with_key "sk-test") (inr ok_secret).
Proof.
  apply (proj1 (proj2 (unprocessable_iff_rejected
                  (Some (JList [JStr "gpt-realtime"]))
                  (mocked (with_key "sk-test") (inr ok_secret))))).
  reflexivity.
Defined.

(** X15. Any string given as [model], the empty one included, is
    accepted and is the model of the payload sent upstream, unchanged. *)
Theorem route_sends_model_unchanged
    (kvs : list (string * Json)) (s : string) (w : World) (key : string) :
  dict_get "model" kvs = Some (JStr s) →
  environ w !! API_KEY = Some key → key ≠ "" →
  calls (post_api_token (Some (JDict kvs)) w).2 =
    calls w ++
    [ {| url := upstream_url;
         headers := [("Authorization", "Bearer " +:+ key);
                     ("Content-Type", "application/json")];
         json := JDict [("session",
                         JDict [("type", JStr "realtime");
                                ("model", JStr s);
                                ("tools", JList tools)])];
         timeout := 10 |} ].
Proof.
  intros Hmodel Hkey Hne.
  assert (Hv : validate (Some (JDict kvs)) = inr {| model := s |})
    by (cbn [validate]; now rewrite Hmodel).
  rewrite (post_api_token_accepted _ _ w Hv). cbn [snd].
  now rewrite (get_token_world _ w key Hkey Hne).
Qed.

Lemma route_sends_model_unchanged_witness :
  length (calls (post_api_token
                   (Some (JDict [("voice", JStr "alloy"); ("model", JStr "")]))
                   (mocked (with_key "sk-test") (inr ok_secret))).2) = 1%nat.
Proof.
  rewrite (route_sends_model_unchanged
             [("voice", JStr "alloy"); ("model", JStr "")] ""
             (mocked (with_key "sk-test") (inr ok_secret)) "sk-test");
    first [reflexivity | discriminate].
Defined.
